(** * MODEL_CONVERTER.py: the ONNX conversion driver

    A shallow embedding of [convert_model] and of the [__main__] block of
    [MODEL_CONVERTER.py].  The script is a linear sequence of calls into
    [onnx], [onnx.version_converter], [onnxsim] and [os.path]; those
    libraries are not part of the repository, so they enter the model as
    the fields of a record of oracles ([Externals]).  Every call the
    driver makes is recorded, together with its outcome, in a chronological
    trace, and the properties of the driver are stated on that trace and on
    the way the process terminates. *)

From Stdlib Require Import ZArith List String Ascii Bool Lia.
From Stdlib Require Import DecimalString.
Import ListNotations.

Local Open Scope string_scope.
Local Open Scope Z_scope.

(** ** Python values *)

(** Instances of Python's [Exception] class: the class both [except]
    clauses of [convert_model] and the one of [__main__] name.
    [exc_message] is what [str(e)] (and [{e}] in an f-string) gives. *)
Record Exception : Type := mkException {
  exc_class : string;
  exc_message : string
}.

Definition str_exc (e : Exception) : string := exc_message e.

(** What a call into a library does: it returns a value or raises an
    [Exception].  Signals outside that class ([KeyboardInterrupt], a
    [SystemExit] raised inside a library) are not behaviours of the
    libraries here. *)
Inductive outcome (A : Type) : Type :=
| Ok (a : A)
| Err (e : Exception).
Arguments Ok {A} a.
Arguments Err {A} e.

(** [str(n)] for a Python [int]. *)
Definition str_int (n : Z) : string := NilZero.string_of_int (Z.to_int n).

(** One entry of [ModelProto.opset_import]. *)
Record OperatorSetIdProto : Type := mkOpset {
  domain : string;
  version : Z
}.

(** The model: the script reads [opset_import] and nothing else; the
    rest of the protobuf message is the opaque [payload].  A value of this
    type stands for the object the variable [model] is bound to: the
    script never assigns to a field of it, it only rebinds the variable. *)
Record ModelProto (G : Type) : Type := mkModel {
  opset_import : list OperatorSetIdProto;
  payload : G
}.
Arguments mkModel {G} _ _.
Arguments opset_import {G} _.
Arguments payload {G} _.

(** ** Calls and traces *)

(** The calls of the driver that leave the script, each with its
    arguments and with what came back, and the lines it prints. *)
Inductive event (G : Type) : Type :=
| EPrint (line : string)
| ELoad (path : string) (r : outcome (ModelProto G))
| EConvertVersion (m : ModelProto G) (target : Z) (r : outcome (ModelProto G))
| ESimplify (m : ModelProto G) (check_n : Z) (skip_fuse_bn skip_optimization : bool)
            (r : outcome (ModelProto G * bool))
| ECheckModel (m : ModelProto G) (r : outcome unit)
| ESave (m : ModelProto G) (path : string) (r : outcome unit)
| EGetSize (path : string) (r : outcome Z).
Arguments EPrint {G} line.
Arguments ELoad {G} path r.
Arguments EConvertVersion {G} m target r.
Arguments ESimplify {G} m check_n skip_fuse_bn skip_optimization r.
Arguments ECheckModel {G} m r.
Arguments ESave {G} m path r.
Arguments EGetSize {G} path r.

(** How a piece of Python code finishes: it falls through with a value,
    an [Exception] propagates, or [sys.exit(code)] was called
    ([SystemExit] is not an [Exception], so no [except Exception] clause
    stops it). *)
Inductive result (A : Type) : Type :=
| Return (a : A)
| Raise (e : Exception)
| Exit (code : Z).
Arguments Return {A} a.
Arguments Raise {A} e.
Arguments Exit {A} code.

(** The libraries and builtins the script calls.  [W] is the state of
    everything outside the interpreter (the file system above all); a call
    may read and change it. *)
Record Externals (G W : Type) : Type := mkExternals {
  onnx_load : string -> W -> outcome (ModelProto G) * W;
  convert_version : ModelProto G -> Z -> W -> outcome (ModelProto G) * W;
  onnxsim_simplify :
    ModelProto G -> Z -> bool -> bool -> W -> outcome (ModelProto G * bool) * W;
  check_model : ModelProto G -> W -> outcome unit * W;
  onnx_save : ModelProto G -> string -> W -> outcome unit * W;
  getsize : string -> W -> outcome Z * W;
  (** [int(s)] *)
  py_int : string -> outcome Z;
  (** [f"{n / 1024 / 1024:.2f}"] for a byte count [n] (float arithmetic
      and formatting are left to the interpreter) *)
  format_mb : Z -> string;
  (** the text of the [IndexError] of [opset_import[0]] on an empty list *)
  index_error_text : string
}.
Arguments onnx_load {G W} _ _ _.
Arguments convert_version {G W} _ _ _ _.
Arguments onnxsim_simplify {G W} _ _ _ _ _ _.
Arguments check_model {G W} _ _ _.
Arguments onnx_save {G W} _ _ _ _.
Arguments getsize {G W} _ _ _.
Arguments py_int {G W} _ _.
Arguments format_mb {G W} _ _.
Arguments index_error_text {G W} _.

(** ** The interpreter monad *)

Record State (G W : Type) : Type := mkState {
  world : W;
  trace : list (event G)
}.
Arguments mkState {G W} _ _.
Arguments world {G W} _.
Arguments trace {G W} _.

Module Py.
Section Monad.
Context {G W : Type}.

Definition M (A : Type) : Type := State G W -> result A * State G W.

Definition ret {A} (a : A) : M A := fun st => (Return a, st).

Definition bind {A B} (c : M A) (k : A -> M B) : M B :=
  fun st =>
    match c st with
    | (Return a, st') => k a st'
    | (Raise e, st') => (Raise e, st')
    | (Exit n, st') => (Exit n, st')
    end.

(** [raise e] *)
Definition raise {A} (e : Exception) : M A := fun st => (Raise e, st).

(** [sys.exit(code)] *)
Definition sys_exit {A} (code : Z) : M A := fun st => (Exit code, st).

(** [try: body  except Exception as e: handler e]: what the body did
    before it raised stays done. *)
Definition try_except {A} (body : M A) (handler : Exception -> M A) : M A :=
  fun st =>
    match body st with
    | (Raise e, st') => handler e st'
    | other => other
    end.

Definition log (ev : event G) : M unit :=
  fun st => (Return tt, mkState (world st) (trace st ++ [ev])).

(** [print(line)] *)
Definition print (line : string) : M unit := log (EPrint line).

(** A call into a library: run the oracle on the current world, record
    the call and what came back, and return or raise accordingly. *)
Definition call {A} (f : W -> outcome A * W) (ev : outcome A -> event G) : M A :=
  fun st =>
    let '(r, w') := f (world st) in
    let st' := mkState w' (trace st ++ [ev r]) in
    match r with
    | Ok a => (Return a, st')
    | Err e => (Raise e, st')
    end.

(** A builtin without effect outside the interpreter. *)
Definition lift {A} (r : outcome A) : M A :=
  fun st => match r with
            | Ok a => (Return a, st)
            | Err e => (Raise e, st)
            end.
End Monad.
Arguments M : clear implicits.
End Py.

Declare Scope py_scope.
Delimit Scope py_scope with py.
Notation "x <- c ;; k" := (Py.bind c (fun x => k))
  (at level 61, c at next level, right associativity) : py_scope.
Notation "' pat <- c ;; k" := (Py.bind c (fun x => match x with pat => k end))
  (at level 61, pat pattern, c at next level, right associativity) : py_scope.
Notation "c ;; k" := (Py.bind c (fun _ => k))
  (at level 61, right associativity) : py_scope.

(** ** The script *)

Definition LF : string := String (ascii_of_nat 10) EmptyString.

(** ['=' * n] *)
Fixpoint str_repeat (s : string) (n : nat) : string :=
  match n with
  | O => EmptyString
  | S k => s ++ str_repeat s k
  end.

(** The lines the script prints, in the order of the source. *)
Module Msg.
Definition loading (input_path : string) : string :=
  "Loading model from " ++ input_path ++ "...".
Definition current_opset (v : Z) : string :=
  "Current opset version: " ++ str_int v.
Definition converting (target_opset : Z) : string :=
  "Converting to opset " ++ str_int target_opset ++ "...".
Definition simplifying : string := "Simplifying model...".
Definition simplified_ok : string := "✅ Model simplified successfully".
Definition simplified_unsure : string :=
  "⚠️  Simplification may have issues, but continuing...".
Definition simplify_failed (e : Exception) : string :=
  "⚠️  Could not simplify model: " ++ str_exc e.
Definition continuing : string := "Continuing with non-simplified model...".
Definition validating : string := "Validating model...".
Definition valid : string := "✅ Model is valid".
Definition validation_warning (e : Exception) : string :=
  "⚠️  Model validation warning: " ++ str_exc e.
Definition saving (output_path : string) : string :=
  "Saving converted model to " ++ output_path ++ "...".
Definition rule_top : string := LF ++ str_repeat "=" 50.
Definition complete : string := "✅ Conversion complete!".
Definition input_size (mb : string) : string := "Input size:  " ++ mb ++ " MB".
Definition output_size (mb : string) : string := "Output size: " ++ mb ++ " MB".
Definition target (target_opset : Z) : string :=
  "Target opset: " ++ str_int target_opset.
Definition rule_bottom : string := str_repeat "=" 50 ++ LF.
Definition next_steps : string := "Next steps:".
Definition step1 (output_path : string) : string :=
  "1. Test the converted model: " ++ output_path.
Definition step2 : string := "2. Upload to your repository".
Definition step3 : string := "3. Update the model URL in your app".
Definition usage : string :=
  "Usage: python MODEL_CONVERTER.py input.onnx output.onnx [opset_version]".
Definition example : string := LF ++ "Example:".
Definition example_line : string :=
  "  python MODEL_CONVERTER.py detection-v1.0.0.onnx detection-v1.0.0-web.onnx 14".
Definition error (e : Exception) : string := "❌ Error: " ++ str_exc e.
End Msg.

Section Script.
Context {G W : Type}.
Variable ext : Externals G W.

Local Open Scope py_scope.
Import Py.

(** [l[0]] on a repeated field *)
Definition first_opset (l : list OperatorSetIdProto) : M G W OperatorSetIdProto :=
  match l with
  | [] => raise (mkException "IndexError" (index_error_text ext))
  | x :: _ => ret x
  end.

Definition convert_model (input_path output_path : string) (target_opset : Z)
  : M G W unit :=
  print (Msg.loading input_path) ;;
  model <- call (onnx_load ext input_path) (ELoad input_path) ;;
  (* Check current opset *)
  first <- first_opset (opset_import model) ;;
  let current_opset := version first in
  print (Msg.current_opset current_opset) ;;
  model <- (if current_opset >? target_opset
            then
              print (Msg.converting target_opset) ;;
              call (convert_version ext model target_opset)
                   (EConvertVersion model target_opset)
            else ret model) ;;
  (* Simplify model *)
  print Msg.simplifying ;;
  model <- try_except
             ('(simplified, check) <-
                  call (onnxsim_simplify ext model 3 false false)
                       (ESimplify model 3 false false) ;;
              (if check : bool
               then print Msg.simplified_ok
               else print Msg.simplified_unsure) ;;
              ret simplified)
             (fun e =>
                print (Msg.simplify_failed e) ;;
                print Msg.continuing ;;
                ret model) ;;
  (* Check the model *)
  print Msg.validating ;;
  try_except
    (call (check_model ext model) (ECheckModel model) ;;
     print Msg.valid)
    (fun e => print (Msg.validation_warning e)) ;;
  (* Save *)
  print (Msg.saving output_path) ;;
  call (onnx_save ext model output_path) (ESave model output_path) ;;
  (* Compare sizes *)
  input_size <- call (getsize ext input_path) (EGetSize input_path) ;;
  output_size <- call (getsize ext output_path) (EGetSize output_path) ;;
  print Msg.rule_top ;;
  print Msg.complete ;;
  print (Msg.input_size (format_mb ext input_size)) ;;
  print (Msg.output_size (format_mb ext output_size)) ;;
  print (Msg.target target_opset) ;;
  print Msg.rule_bottom ;;
  print Msg.next_steps ;;
  print (Msg.step1 output_path) ;;
  print Msg.step2 ;;
  print Msg.step3.

(** The [if __name__ == "__main__":] block; [argv] is [sys.argv]. *)
Definition main (argv : list string) : M G W unit :=
  if (Z.of_nat (List.length argv) <? 3)
  then
    print Msg.usage ;;
    print Msg.example ;;
    print Msg.example_line ;;
    sys_exit 1
  else
    let input_path := nth 1%nat argv "" in
    let output_path := nth 2%nat argv "" in
    target_opset <- (if Z.of_nat (List.length argv) >? 3
                     then lift (py_int ext (nth 3%nat argv ""))
                     else ret 14) ;;
    try_except
      (convert_model input_path output_path target_opset)
      (fun e => print (Msg.error e) ;; sys_exit 1).

(** A run starts with nothing printed and nothing called. *)
Definition run {A} (c : M G W A) (w : W) : result A * State G W :=
  c (mkState w []).

(** The exit status of the process: 0 when the script falls off its
    end, the argument of [sys.exit], and 1 when the interpreter
    terminates on an exception nobody caught. *)
Definition exit_code {A} (r : result A) : Z :=
  match r with
  | Return _ => 0
  | Raise _ => 1
  | Exit n => n
  end.
End Script.

(** ** Reading a trace *)

Section Traces.
Context {G : Type}.

Definition is_call (ev : event G) : bool :=
  match ev with
  | EPrint _ => false
  | _ => true
  end.

(** The calls into the libraries, in order, without the printed lines. *)
Definition calls (tr : list (event G)) : list (event G) := filter is_call tr.

(** The lines printed, in order. *)
Definition printed (tr : list (event G)) : list string :=
  flat_map (fun ev => match ev with EPrint s => [s] | _ => [] end) tr.

(** The arguments of every call of [version_converter.convert_version]. *)
Definition converted (tr : list (event G)) : list (ModelProto G * Z) :=
  flat_map (fun ev => match ev with
                      | EConvertVersion m t _ => [(m, t)]
                      | _ => []
                      end) tr.

(** The arguments of every call of [onnxsim.simplify]. *)
Definition simplified (tr : list (event G)) : list (ModelProto G * Z * bool * bool) :=
  flat_map (fun ev => match ev with
                      | ESimplify m n fuse opt _ => [(m, n, fuse, opt)]
                      | _ => []
                      end) tr.

(** The argument of every call of [onnx.checker.check_model]. *)
Definition checked (tr : list (event G)) : list (ModelProto G) :=
  flat_map (fun ev => match ev with ECheckModel m _ => [m] | _ => [] end) tr.

(** The arguments of every call of [onnx.save]: the writes of the driver. *)
Definition saved (tr : list (event G)) : list (ModelProto G * string) :=
  flat_map (fun ev => match ev with ESave m p _ => [(m, p)] | _ => [] end) tr.

(** Calls that open a file: [onnx.load], [onnx.save], [os.path.getsize]. *)
Definition is_file_io (ev : event G) : bool :=
  match ev with
  | ELoad _ _ | ESave _ _ _ | EGetSize _ _ => true
  | _ => false
  end.

(** The call that failed with [e], when [ev] is a failed save or a failed
    size query. *)
Definition save_or_size_failed (e : Exception) (ev : event G) : Prop :=
  (exists m p, ev = ESave m p (Err e)) \/ (exists p, ev = EGetSize p (Err e)).

(** A failed call that the script does not recover from: the load, the
    version conversion or the save. *)
Definition fatal_failure (e : Exception) (ev : event G) : Prop :=
  (exists p, ev = ELoad p (Err e)) \/
  (exists m v, ev = EConvertVersion m v (Err e)) \/
  (exists m p, ev = ESave m p (Err e)).

(** [seg] is a run of consecutive events of [tr]: [tr] starts with it,
    or it occurs further on. *)
Inductive segment (seg : list (event G)) : list (event G) -> Prop :=
| segment_here (tr post : list (event G)) :
    tr = (seg ++ post)%list -> segment seg tr
| segment_skip (ev : event G) (tr : list (event G)) :
    segment seg tr -> segment seg (ev :: tr).





(** What the handler of [__main__] adds to a run of [convert_model]. *)
Definition handler_lines (r : result unit) : list (event G) :=
  match r with
  | Raise e => [EPrint (Msg.error e)]
  | _ => []
  end.

(** What is left to say of the result once the script is past the
    validator: it returns, or the exception that leaves it was raised by
    the last call it made, the save or a size query. *)
Definition ends_in_save_or_size (r : result unit) (tr : list (event G)) : Prop :=
  r = Return tt \/
  exists e, r = Raise e /\ save_or_size_failed e (last (calls tr) (EPrint "")).
End Traces.

(** The two observations of a run of [convert_model] and of [main]. *)
Section Runs.
Context {G W : Type}.
Variable ext : Externals G W.

Definition convert_result (input_path output_path : string) (target_opset : Z)
  (w : W) : result unit :=
  fst (run (convert_model ext input_path output_path target_opset) w).

Definition convert_trace (input_path output_path : string) (target_opset : Z)
  (w : W) : list (event G) :=
  trace (snd (run (convert_model ext input_path output_path target_opset) w)).

Definition main_result (argv : list string) (w : W) : result unit :=
  fst (run (main ext argv) w).

Definition main_trace (argv : list string) (w : W) : list (event G) :=
  trace (snd (run (main ext argv) w)).

(** [len(sys.argv) < 3]: the test that guards the usage message. *)
Definition usage_error (argv : list string) : bool :=
  Z.of_nat (List.length argv) <? 3.

(** The value [__main__] binds to [target_opset], when it gets that far. *)
Definition parsed_target (argv : list string) : outcome Z :=
  if Z.of_nat (List.length argv) >? 3
  then py_int ext (nth 3%nat argv "")
  else Ok 14.

(** The world a run of [convert_model] leaves behind. *)
Definition convert_world (input_path output_path : string) (target_opset : Z)
  (w : W) : W :=
  world (snd (run (convert_model ext input_path output_path target_opset) w)).

(** A trace that records real calls: read from the first event on, each
    call is the library applied to the world the previous call left, its
    logged outcome is what the library gave back there, and the last world
    is [w']; printed lines leave the world alone. *)
Inductive replay : W -> list (event G) -> W -> Prop :=
| replay_nil (w : W) : replay w [] w
| replay_print (w w' : W) (line : string) (tr : list (event G)) :
    replay w tr w' -> replay w (EPrint line :: tr) w'
| replay_load (w w1 w' : W) (p : string) (r : outcome (ModelProto G))
    (tr : list (event G)) :
    onnx_load ext p w = (r, w1) -> replay w1 tr w' ->
    replay w (ELoad p r :: tr) w'
| replay_convert (w w1 w' : W) (m : ModelProto G) (v : Z)
    (r : outcome (ModelProto G)) (tr : list (event G)) :
    convert_version ext m v w = (r, w1) -> replay w1 tr w' ->
    replay w (EConvertVersion m v r :: tr) w'
| replay_simplify (w w1 w' : W) (m : ModelProto G) (n : Z) (fuse opt : bool)
    (r : outcome (ModelProto G * bool)) (tr : list (event G)) :
    onnxsim_simplify ext m n fuse opt w = (r, w1) -> replay w1 tr w' ->
    replay w (ESimplify m n fuse opt r :: tr) w'
| replay_check (w w1 w' : W) (m : ModelProto G) (r : outcome unit)
    (tr : list (event G)) :
    check_model ext m w = (r, w1) -> replay w1 tr w' ->
    replay w (ECheckModel m r :: tr) w'
| replay_save (w w1 w' : W) (m : ModelProto G) (p : string) (r : outcome unit)
    (tr : list (event G)) :
    onnx_save ext m p w = (r, w1) -> replay w1 tr w' ->
    replay w (ESave m p r :: tr) w'
| replay_getsize (w w1 w' : W) (p : string) (r : outcome Z)
    (tr : list (event G)) :
    getsize ext p w = (r, w1) -> replay w1 tr w' ->
    replay w (EGetSize p r :: tr) w'.

(** Lines 36-38: the model and the world after the conversion step, for
    a loaded model whose first [opset_import] entry is [first]. *)
Definition conversion_step (target_opset : Z) (model : ModelProto G)
  (first : OperatorSetIdProto) (w : W) : outcome (ModelProto G) * W :=
  if version first >? target_opset
  then convert_version ext model target_opset w
  else (Ok model, w).

(** Lines 42-55: the model the variable is bound to after the
    simplification block, and the world the simplifier left. *)
Definition simplify_step (model : ModelProto G) (w : W) : ModelProto G * W :=
  match onnxsim_simplify ext model 3 false false w with
  | (Ok (simplified, _), w') => (simplified, w')
  | (Err _, w') => (model, w')
  end.

(** [int] rejects the opset argument. *)
Definition bad_opset_argument (argv : list string) : Prop :=
  exists e, parsed_target argv = Err e.

(** [convert_model], called as [__main__] calls it, raises. *)
Definition conversion_raises (argv : list string) (w : W) : Prop :=
  exists t e,
    parsed_target argv = Ok t /\
    convert_result (nth 1%nat argv "") (nth 2%nat argv "") t w = Raise e.
End Runs.

(** ** A concrete world

    A small file system and deterministic stand-ins for the libraries, to
    run the script on. *)
Module Demo.

Definition Graph : Type := nat.
Definition FS : Type := list (string * ModelProto Graph).

Fixpoint lookup (p : string) (fs : FS) : option (ModelProto Graph) :=
  match fs with
  | [] => None
  | (q, m) :: rest => if String.eqb p q then Some m else lookup p rest
  end.

Definition load (p : string) (fs : FS) : outcome (ModelProto Graph) * FS :=
  match lookup p fs with
  | Some m => (Ok m, fs)
  | None => (Err (mkException "FileNotFoundError" p), fs)
  end.

(** Downgrades every entry to the target; refuses targets below 7. *)
Definition convert (m : ModelProto Graph) (t : Z) (fs : FS)
  : outcome (ModelProto Graph) * FS :=
  if t <? 7
  then (Err (mkException "ConvertError" "unsupported target"), fs)
  else (Ok (mkModel (map (fun o => mkOpset (domain o) t) (opset_import m))
                    (payload m)), fs).

(** Fails on graph 0, is unsure about graph 1, shrinks the others. *)
Definition simplify (m : ModelProto Graph) (n : Z) (fuse opt : bool) (fs : FS)
  : outcome (ModelProto Graph * bool) * FS :=
  match payload m with
  | 0%nat => (Err (mkException "RuntimeError" "empty graph"), fs)
  | 1%nat => (Ok (mkModel (opset_import m) 2%nat, false), fs)
  | S k => (Ok (mkModel (opset_import m) k, true), fs)
  end.

(** Rejects graph 13. *)
Definition check (m : ModelProto Graph) (fs : FS) : outcome unit * FS :=
  match payload m with
  | 13%nat => (Err (mkException "ValidationError" "bad graph"), fs)
  | _ => (Ok tt, fs)
  end.

(** Refuses the empty path. *)
Definition save (m : ModelProto Graph) (p : string) (fs : FS) : outcome unit * FS :=
  if String.eqb p ""
  then (Err (mkException "FileNotFoundError" p), fs)
  else (Ok tt, (p, m) :: fs).

Definition size (p : string) (fs : FS) : outcome Z * FS :=
  match lookup p fs with
  | Some m => (Ok (1048576 * Z.of_nat (S (payload m))), fs)
  | None => (Err (mkException "FileNotFoundError" p), fs)
  end.

Definition digit (c : ascii) : option Z :=
  let n := Z.of_nat (nat_of_ascii c) in
  if (48 <=? n) && (n <=? 57) then Some (n - 48) else None.

Fixpoint digits (acc : Z) (s : string) : option Z :=
  match s with
  | EmptyString => Some acc
  | String c rest =>
      match digit c with
      | Some d => digits (10 * acc + d) rest
      | None => None
      end
  end.

(** [int] on plain runs of ASCII digits; everything else is rejected. *)
Definition parse_int (s : string) : outcome Z :=
  match s with
  | EmptyString => Err (mkException "ValueError" "invalid literal for int()")
  | _ => match digits 0 s with
         | Some n => Ok n
         | None => Err (mkException "ValueError" "invalid literal for int()")
         end
  end.

Definition ext : Externals Graph FS :=
  mkExternals Graph FS load convert simplify check save size parse_int
    (fun n => str_int (n / 1048576) ++ ".00") "list index out of range".

Definition model (v : Z) (g : nat) : ModelProto Graph :=
  mkModel [mkOpset "" v] g.

(** A file system holding one model, at [in.onnx]. *)
Definition fs_with (m : ModelProto Graph) : FS := [("in.onnx", m)].

Definition argv_two : list string :=
  ["MODEL_CONVERTER.py"; "in.onnx"; "out.onnx"].
Definition argv_one : list string := ["MODEL_CONVERTER.py"; "in.onnx"].
Definition argv_bad_opset : list string :=
  ["MODEL_CONVERTER.py"; "in.onnx"; "out.onnx"; "abc"].


End Demo.

(** ** Exploring the runs *)

Ltac unfold_script_in H :=
  cbv beta iota zeta delta
    [run convert_model main first_opset
     Py.bind Py.ret Py.raise Py.sys_exit Py.try_except Py.log Py.print
     Py.call Py.lift world trace fst snd app] in H.

Ltac reduce_run_in H := cbv beta iota zeta delta [world trace fst snd app] in H.

(** One step of a run: case analysis on what the next library call
    gives back, or on the next test of the script. *)
Ltac next_call_in H :=
  match type of H with
  | context [onnx_load ?e ?p ?w] =>
      destruct (onnx_load e p w) as [[?m | ?e] ?w] eqn:?
  | context [convert_version ?e ?m ?t ?w] =>
      destruct (convert_version e m t w) as [[?m | ?e] ?w] eqn:?
  | context [onnxsim_simplify ?e ?m ?n ?a ?b ?w] =>
      destruct (onnxsim_simplify e m n a b w) as [[[?m [|]] | ?e] ?w] eqn:?
  | context [check_model ?e ?m ?w] =>
      destruct (check_model e m w) as [[[] | ?e] ?w] eqn:?
  | context [onnx_save ?e ?m ?p ?w] =>
      destruct (onnx_save e m p w) as [[[] | ?e] ?w] eqn:?
  | context [getsize ?e ?p ?w] =>
      destruct (getsize e p w) as [[?n | ?e] ?w] eqn:?
  | context [match opset_import ?m with _ => _ end] =>
      destruct (opset_import m) as [| ?v ?rest] eqn:?
  | context [if ?a >? ?b then _ else _] =>
      destruct (Z.gtb_spec a b)
  end; reduce_run_in H.

(** All the runs of [convert_model]: the goal is left once per path
    through the script, with the result and the trace of that path. *)
Ltac explore_convert :=
  unfold convert_result, convert_trace in *;
  match goal with
  | |- context [run (convert_model ?e ?i ?o ?t) ?w] =>
      let Hrun := fresh "Hrun" in
      destruct (run (convert_model e i o t) w) as [r st] eqn:Hrun;
      unfold_script_in Hrun;
      repeat next_call_in Hrun;
      apply pair_equal_spec in Hrun; destruct Hrun as [? ?]; subst r st;
      cbv beta iota zeta delta [fst snd trace world] in *
  end.

(** Which element of a concrete trace a hypothesis [In ev tr] names. *)
Ltac split_in H :=
  cbv [In] in H;
  repeat (destruct H as [H | H]; [try discriminate H |]);
  try contradiction.

(** Two readings of [opset_import] of one model agree. *)
Ltac same_opset :=
  match goal with
  | H1 : opset_import ?m = _, H2 : opset_import ?m = _ |- _ =>
      rewrite H1 in H2;
      first [discriminate H2 | injection H2 as ? ?; subst | clear H2]
  end.

(** Finding a run of consecutive events in a concrete trace: here, or
    further on. *)
Ltac find_segment :=
  first [ solve [eapply segment_here; reflexivity]
        | apply segment_skip; find_segment ].



(** The two ways a run can end once it is past the validator. *)
Ltac solve_ending :=
  unfold ends_in_save_or_size, save_or_size_failed;
  first [ left; reflexivity
        | right; eexists; split; [reflexivity |];
          first [ left; do 2 eexists; reflexivity
                | right; eexists; reflexivity ] ].

(** Starting a run whose first steps are known: the run is named, the
    script unfolded, and the steps are then followed one by one. *)
Ltac start_run Hrun :=
  unfold convert_result, convert_trace, convert_world in *;
  match goal with
  | |- context [run (convert_model ?e ?i ?o ?t) ?w] =>
      destruct (run (convert_model e i o t) w) as [r st] eqn:Hrun;
      unfold_script_in Hrun
  end.

(** A known step: the equation [E] says what the call gives back. *)
Ltac known_step Hrun E := rewrite E in Hrun; reduce_run_in Hrun.

(** The end of a path: the result, the trace and the world of the run. *)
Ltac end_run Hrun :=
  let Hr := fresh "Hr" in
  let Hs := fresh "Hs" in
  apply pair_equal_spec in Hrun; destruct Hrun as [Hr Hs];
  rewrite <- Hr, <- Hs in *; clear Hr Hs;
  cbv beta iota zeta delta [fst snd trace world] in *.

Ltac replay_trace := repeat (econstructor; try eassumption).

(** Equations between outcomes of calls, taken apart; two equations on
    one call say the same thing. *)
Ltac same_call :=
  repeat match goal with
         | E : (_, _) = (_, _) |- _ =>
             first [discriminate E | injection E; intros; subst; clear E]
         | E : Err _ = Err _ |- _ => injection E as ?; subst
         | E : Ok _ = Err _ |- _ => discriminate E
         | E : Err _ = Ok _ |- _ => discriminate E
         | E1 : ?l = (_, _), E2 : ?l = (_, _) |- _ => rewrite E1 in E2
         end.

(** The facts about what the save and the size queries give back. *)
Ltac solve_outcomes :=
  repeat split;
  try (intros; same_call; repeat split; try reflexivity);
  try (cbv [In]; tauto).

(** ** Properties of [convert_model] *)

(** [segment] in words: some events, then [seg], then the rest. *)
Lemma segment_split {G : Type} (seg tr : list (event G)) :
  segment seg tr <-> exists pre post, tr = (pre ++ seg ++ post)%list.
Proof.
  split.
  - induction 1 as [tr post -> | ev tr _ (pre & post & ->)].
    + exists [], post. reflexivity.
    + exists (ev :: pre), post. reflexivity.
  - intros (pre & post & ->). induction pre as [| ev pre IH].
    + apply (segment_here seg _ post). reflexivity.
    + apply segment_skip. exact IH.
Qed.

Section Properties.
Context {G W : Type}.
Variable ext : Externals G W.
Variables i o : string.
Variable t : Z.
Variable w : W.

(** The conversion step, read off the loaded model: whether
    [convert_version] is called, and with what, is a function of the
    version of the first [opset_import] entry and of the target. *)
Lemma conversion_calls :
  forall (m : ModelProto G) (first : OperatorSetIdProto) (rest : list OperatorSetIdProto),
    In (ELoad i (Ok m)) (convert_trace ext i o t w) ->
    opset_import m = first :: rest ->
    converted (convert_trace ext i o t w) =
      if version first >? t then [(m, t)] else [].
Proof.
  intros m first rest Hload Hops.
  explore_convert; split_in Hload; injection Hload as <-; same_opset.
  all: match goal with
       | H : _ < _ |- _ => apply Z.gtb_lt in H; rewrite H
       | H : _ <= _ |- _ =>
           let E := fresh in
           destruct (Z.gtb_spec (version first) t) as [E | E]; [lia |]
       end; reflexivity.
Qed.


(** [convert_model] never calls [sys.exit]: it returns or it raises. *)
Lemma convert_model_never_exits :
  forall n : Z, convert_result ext i o t w <> Exit n.
Proof.
  intros n. explore_convert; discriminate.
Qed.

(** An empty [opset_import] stops the script at [opset_import[0]]. *)
Lemma empty_opset_import_raises :
  forall m : ModelProto G,
    In (ELoad i (Ok m)) (convert_trace ext i o t w) ->
    opset_import m = [] ->
    convert_result ext i o t w =
      Raise (mkException "IndexError" (index_error_text ext)) /\
    calls (convert_trace ext i o t w) = [ELoad i (Ok m)] /\
    converted (convert_trace ext i o t w) = [].
Proof.
  intros m Hload Hops.
  explore_convert; split_in Hload; injection Hload as <-; same_opset.
  repeat split.
Qed.

(** C7. In a run in which the load, the version conversion or the save
    fails, [convert_model] raises that exception, the failed call is the
    last thing the run does (nothing is undone or removed afterwards), and
    no save was issued before it; a run issues at most one save, to the
    output path. *)
Theorem failed_run_wrote_nothing_before_save :
  forall (e : Exception) (ev : event G),
    In ev (convert_trace ext i o t w) ->
    fatal_failure e ev ->
    convert_result ext i o t w = Raise e /\
    last (convert_trace ext i o t w) (EPrint "") = ev /\
    saved (removelast (convert_trace ext i o t w)) = [] /\
    (saved (convert_trace ext i o t w) = [] \/
     exists m, ev = ESave m o (Err e) /\
               saved (convert_trace ext i o t w) = [(m, o)]).
Proof.
  intros e ev Hin Hfatal.
  explore_convert.
  all: destruct Hfatal as [(p & ->) | [(m' & v' & ->) | (m' & p & ->)]];
    split_in Hin.
  all: first [ injection Hin as <- <- <- | injection Hin as <- <- ].
  all: repeat split; try reflexivity.
  all: first [ left; reflexivity | right; eexists; split; reflexivity ].
Qed.
End Properties.

(** ** Calls that are made, and what they decide *)

Section Faithful.
Context {G W : Type}.
Variable ext : Externals G W.
Variables i o : string.
Variable t : Z.
Variable w : W.

(** The trace of a run is a record of real calls: every logged call was
    made, on the world the call before it left, and gave back what the log
    says; the run makes no other call. *)
Lemma convert_model_replay :
  replay ext w (convert_trace ext i o t w) (convert_world ext i o t w).
Proof.
  unfold convert_world. explore_convert; replay_trace.
Qed.

(** C2. When the loaded model declares a version strictly above the
    target, [convert_version] is applied exactly once, to the loaded model
    and the target, in the world the load left; what it gives back decides
    the run: its exception is the one [convert_model] raises, and the model
    it returns is the one handed to the simplifier in the world the
    conversion left. *)
Theorem conversion_once_with_target :
  forall (m : ModelProto G) (v : OperatorSetIdProto)
         (rest : list OperatorSetIdProto) (w1 : W),
    onnx_load ext i w = (Ok m, w1) ->
    opset_import m = v :: rest ->
    version v > t ->
    converted (convert_trace ext i o t w) = [(m, t)] /\
    List.length (converted (convert_trace ext i o t w)) = 1%nat /\
    In (EConvertVersion m t (fst (convert_version ext m t w1)))
       (convert_trace ext i o t w) /\
    (forall e w2,
        convert_version ext m t w1 = (Err e, w2) ->
        convert_result ext i o t w = Raise e /\
        convert_world ext i o t w = w2) /\
    (forall m1 w2,
        convert_version ext m t w1 = (Ok m1, w2) ->
        In (ESimplify m1 3 false false
              (fst (onnxsim_simplify ext m1 3 false false w2)))
           (convert_trace ext i o t w)) /\
    replay ext w (convert_trace ext i o t w) (convert_world ext i o t w).
Proof.
  intros m v rest w1 Hload Hops Hgt.
  assert (Hreplay := convert_model_replay).
  start_run Hrun.
  known_step Hrun Hload. known_step Hrun Hops.
  destruct (Z.gtb_spec (version v) t) as [_ | Hle]; [| lia].
  reduce_run_in Hrun.
  destruct (convert_version ext m t w1) as [[m1 | e] w2] eqn:Hconv;
    reduce_run_in Hrun.
  - destruct (onnxsim_simplify ext m1 3 false false w2) as [rsim w3] eqn:Hsim.
    destruct rsim as [[m2 [|]] | e]; reduce_run_in Hrun;
      repeat next_call_in Hrun; end_run Hrun.
    all: repeat split; try exact Hreplay; try discriminate.
    all: try (intros ? ? Heq; injection Heq as <- <-; rewrite Hsim).
    all: cbv [In fst]; tauto.
  - end_run Hrun.
    repeat split; try exact Hreplay; try discriminate.
    + cbv [In fst]. tauto.
    + injection H as <- _. reflexivity.
    + injection H as _ <-. reflexivity.
Qed.
End Faithful.

Section Tolerant.
Context {G W : Type}.
Variable ext : Externals G W.
Variables i o : string.
Variable t : Z.
Variable w : W.

(** C3. When [onnxsim.simplify] raises on the model the script holds
    after the conversion step, the exception is caught: the two lines of
    the handler are printed, the validator is applied to that same model
    in the world the simplifier left, and [onnx.save] is applied to that
    model and the output path in the world the validator left; what the
    save and the size queries give back, and nothing of the simplifier,
    decides how [convert_model] ends. *)
Theorem simplify_failure_is_tolerated :
  forall (m0 : ModelProto G) (first : OperatorSetIdProto)
         (rest : list OperatorSetIdProto) (w1 : W)
         (m : ModelProto G) (w2 : W) (e : Exception) (w3 : W)
         (rc : outcome unit) (w4 : W) (rs : outcome unit) (w5 : W),
    onnx_load ext i w = (Ok m0, w1) ->
    opset_import m0 = first :: rest ->
    conversion_step ext t m0 first w1 = (Ok m, w2) ->
    onnxsim_simplify ext m 3 false false w2 = (Err e, w3) ->
    check_model ext m w3 = (rc, w4) ->
    onnx_save ext m o w4 = (rs, w5) ->
    segment [ESimplify m 3 false false (Err e);
             EPrint (Msg.simplify_failed e);
             EPrint Msg.continuing;
             EPrint Msg.validating;
             ECheckModel m rc]
            (convert_trace ext i o t w) /\
    ((converted (convert_trace ext i o t w) = [] /\
      In (ELoad i (Ok m)) (convert_trace ext i o t w)) \/
     (exists m', In (EConvertVersion m' t (Ok m)) (convert_trace ext i o t w))) /\
    checked (convert_trace ext i o t w) = [m] /\
    saved (convert_trace ext i o t w) = [(m, o)] /\
    ends_in_save_or_size (convert_result ext i o t w) (convert_trace ext i o t w) /\
    In (ESave m o rs) (convert_trace ext i o t w) /\
    (forall e',
        rs = Err e' ->
        convert_result ext i o t w = Raise e' /\
        convert_world ext i o t w = w5) /\
    (forall n_in w6 n_out w7,
        rs = Ok tt ->
        getsize ext i w5 = (Ok n_in, w6) ->
        getsize ext o w6 = (Ok n_out, w7) ->
        convert_result ext i o t w = Return tt /\
        convert_world ext i o t w = w7) /\
    replay ext w (convert_trace ext i o t w) (convert_world ext i o t w).
Proof.
  intros m0 first rest w1 m w2 e w3 rc w4 rs w5 Hload Hops Hconv Hsim Hchk Hsave.
  assert (Hreplay := convert_model_replay ext i o t w).
  unfold conversion_step in Hconv.
  start_run Hrun.
  known_step Hrun Hload. known_step Hrun Hops.
  destruct (version first >? t) eqn:Hgt; reduce_run_in Hrun;
    [known_step Hrun Hconv | injection Hconv as -> ->].
  all: known_step Hrun Hsim; known_step Hrun Hchk.
  all: destruct rc as [[] | ec]; reduce_run_in Hrun; known_step Hrun Hsave.
  all: destruct rs as [[] | es]; reduce_run_in Hrun.
  all: repeat next_call_in Hrun; end_run Hrun.
  all: split; [find_segment |].
  all: split; [first [ left; split; [reflexivity | cbv [In]; tauto]
                     | right; eexists; cbv [In]; tauto ] |].
  all: do 2 (split; [reflexivity |]).
  all: split; [solve_ending |].
  all: solve_outcomes; try exact Hreplay.
Qed.
End Tolerant.

Section Advisory.
Context {G W : Type}.
Variable ext : Externals G W.
Variables i o : string.
Variable t : Z.
Variable w : W.

(** C4. When [onnx.checker.check_model] raises on the model the script
    holds after the simplification block, the exception is caught: the
    warning line is printed, and [onnx.save] is applied to that same model
    and the output path in the world the validator left; what the save and
    the size queries give back, and nothing of the validator, decides how
    [convert_model] ends. *)
Theorem validation_failure_is_advisory :
  forall (m0 : ModelProto G) (first : OperatorSetIdProto)
         (rest : list OperatorSetIdProto) (w1 : W)
         (m1 : ModelProto G) (w2 : W) (m : ModelProto G) (w3 : W)
         (e : Exception) (w4 : W) (rs : outcome unit) (w5 : W),
    onnx_load ext i w = (Ok m0, w1) ->
    opset_import m0 = first :: rest ->
    conversion_step ext t m0 first w1 = (Ok m1, w2) ->
    simplify_step ext m1 w2 = (m, w3) ->
    check_model ext m w3 = (Err e, w4) ->
    onnx_save ext m o w4 = (rs, w5) ->
    segment [ECheckModel m (Err e);
             EPrint (Msg.validation_warning e);
             EPrint (Msg.saving o);
             ESave m o rs]
            (convert_trace ext i o t w) /\
    checked (convert_trace ext i o t w) = [m] /\
    saved (convert_trace ext i o t w) = [(m, o)] /\
    ends_in_save_or_size (convert_result ext i o t w) (convert_trace ext i o t w) /\
    (forall e',
        rs = Err e' ->
        convert_result ext i o t w = Raise e' /\
        convert_world ext i o t w = w5) /\
    (forall n_in w6 n_out w7,
        rs = Ok tt ->
        getsize ext i w5 = (Ok n_in, w6) ->
        getsize ext o w6 = (Ok n_out, w7) ->
        convert_result ext i o t w = Return tt /\
        convert_world ext i o t w = w7) /\
    replay ext w (convert_trace ext i o t w) (convert_world ext i o t w).
Proof.
  intros m0 first rest w1 m1 w2 m w3 e w4 rs w5
         Hload Hops Hconv Hsimp Hchk Hsave.
  assert (Hreplay := convert_model_replay ext i o t w).
  unfold conversion_step in Hconv. unfold simplify_step in Hsimp.
  start_run Hrun.
  known_step Hrun Hload. known_step Hrun Hops.
  destruct (version first >? t) eqn:Hgt; reduce_run_in Hrun;
    [known_step Hrun Hconv | injection Hconv as -> ->].
  all: destruct (onnxsim_simplify ext m1 3 false false w2)
         as [[[m2 [|]] | es] w3'] eqn:Hsim;
    reduce_run_in Hrun; injection Hsimp as -> ->.
  all: known_step Hrun Hchk; known_step Hrun Hsave.
  all: destruct rs as [[] | e']; reduce_run_in Hrun.
  all: repeat next_call_in Hrun; end_run Hrun.
  all: split; [find_segment |].
  all: do 2 (split; [reflexivity |]).
  all: split; [solve_ending |].
  all: solve_outcomes; try exact Hreplay.
Qed.
End Advisory.

(** C8. The conversion decision reads the first [opset_import] entry and
    nothing else: on an empty list the script raises [IndexError] right
    after the load, before any conversion, simplification, validation or
    save; on a non-empty list the calls of [convert_version] are fixed by
    the version of the first entry and the target; so two runs with the
    same target whose loaded models agree on the first entry take the same
    decision, whatever the later entries are. *)
Theorem conversion_decided_by_first_opset :
  forall {G W : Type} (ext : Externals G W) (i o : string) (t : Z) (w : W)
         (m : ModelProto G),
    In (ELoad i (Ok m)) (convert_trace ext i o t w) ->
    (opset_import m = [] ->
     convert_result ext i o t w =
       Raise (mkException "IndexError" (index_error_text ext)) /\
     calls (convert_trace ext i o t w) = [ELoad i (Ok m)]) /\
    (forall first rest,
        opset_import m = first :: rest ->
        converted (convert_trace ext i o t w) =
          if version first >? t then [(m, t)] else []) /\
    (forall (i' o' : string) (w' : W) (m' : ModelProto G),
        In (ELoad i' (Ok m')) (convert_trace ext i' o' t w') ->
        hd_error (opset_import m) = hd_error (opset_import m') ->
        map snd (converted (convert_trace ext i o t w)) =
        map snd (converted (convert_trace ext i' o' t w'))).
Proof.
  intros G W ext i o t w m Hload. split; [| split].
  - intros Hops.
    destruct (empty_opset_import_raises ext i o t w m Hload Hops) as (Hr & Hc & _).
    split; assumption.
  - intros first rest Hops. exact (conversion_calls ext i o t w m first rest Hload Hops).
  - intros i' o' w' m' Hload' Hhd.
    destruct (opset_import m) as [| v rest] eqn:Hops;
      destruct (opset_import m') as [| v' rest'] eqn:Hops';
      cbn [hd_error] in Hhd; try discriminate Hhd.
    + destruct (empty_opset_import_raises ext i o t w m Hload Hops) as (_ & _ & ->).
      destruct (empty_opset_import_raises ext i' o' t w' m' Hload' Hops') as (_ & _ & ->).
      reflexivity.
    + injection Hhd as <-.
      rewrite (conversion_calls ext i o t w m v rest Hload Hops).
      rewrite (conversion_calls ext i' o' t w' m' v rest' Hload' Hops').
      destruct (version v >? t); reflexivity.
Qed.

(** ** Properties of the [__main__] block *)

Section MainProperties.
Context {G W : Type}.
Variable ext : Externals G W.

(** The three ways through [__main__]. *)
Lemma main_result_cases (argv : list string) (w : W) :
  main_result ext argv w =
    if usage_error argv then Exit 1
    else match parsed_target ext argv with
         | Err e => Raise e
         | Ok t =>
             match convert_result ext (nth 1%nat argv "") (nth 2%nat argv "") t w with
             | Return _ => Return tt
             | Raise _ => Exit 1
             | Exit n => Exit n
             end
         end.
Proof.
  unfold main_result, main, usage_error, parsed_target, convert_result, run.
  destruct (Z.of_nat (List.length argv) <? 3); [reflexivity |].
  unfold Py.bind at 1.
  destruct (Z.of_nat (List.length argv) >? 3).
  - unfold Py.lift. destruct (py_int ext (nth 3%nat argv "")) as [t | e];
      [| reflexivity].
    unfold Py.try_except.
    destruct (convert_model ext _ _ t _) as [[[] | e | n] st]; reflexivity.
  - unfold Py.ret, Py.try_except.
    destruct (convert_model ext _ _ 14 _) as [[[] | e | n] st]; reflexivity.
Qed.

(** The positional arguments are [sys.argv[1:]]. *)
Lemma usage_error_positional (argv : list string) :
  usage_error argv = true <-> (List.length (tl argv) < 2)%nat.
Proof.
  unfold usage_error. rewrite Z.ltb_lt.
  destruct argv as [| prog args]; cbn [tl List.length]; lia.
Qed.

(** C5. With fewer than two positional arguments the run consists of the
    three lines of the usage text and [sys.exit(1)]: the exit status is 1
    and no call is made, in particular none that opens a file. *)
Theorem too_few_arguments_print_usage :
  forall (argv : list string) (w : W),
    (List.length (tl argv) < 2)%nat ->
    main_result ext argv w = Exit 1 /\
    exit_code (main_result ext argv w) = 1 /\
    main_trace ext argv w =
      [EPrint Msg.usage; EPrint Msg.example; EPrint Msg.example_line] /\
    existsb is_file_io (main_trace ext argv w) = false /\
    calls (main_trace ext argv w) = [].
Proof.
  intros argv w Hfew.
  apply usage_error_positional in Hfew. unfold usage_error in Hfew.
  unfold main_result, main_trace, main, run. rewrite Hfew.
  repeat split.
Qed.

(** C10. With at least three positional arguments of which the third is
    rejected by [int], the exception of [int] leaves [__main__] as it is:
    nothing has been printed or called, so the handler of the script (its
    error line and its [sys.exit(1)]) has not run. *)
Theorem unparsable_opset_escapes_handler :
  forall (argv : list string) (w : W) (e : Exception),
    (3 <= List.length (tl argv))%nat ->
    py_int ext (nth 2%nat (tl argv) "") = Err e ->
    main_result ext argv w = Raise e /\
    main_trace ext argv w = [] /\
    (forall e', ~ In (Msg.error e') (printed (main_trace ext argv w))) /\
    (forall n, main_result ext argv w <> Exit n).
Proof.
  intros argv w e Hlen Hint.
  assert (Hlt : (Z.of_nat (List.length argv) <? 3) = false).
  { apply Z.ltb_ge. destruct argv; cbn [tl List.length] in *; lia. }
  assert (Hgt : (Z.of_nat (List.length argv) >? 3) = true).
  { apply Z.gtb_lt. destruct argv; cbn [tl List.length] in *; lia. }
  assert (Harg : nth 3%nat argv "" = nth 2%nat (tl argv) "").
  { destruct argv; [cbn in Hlen; lia | reflexivity]. }
  assert (Hrun : run (main ext argv) w = (Raise e, mkState w [])).
  { unfold run, main. rewrite Hlt, Hgt, Harg, Hint. reflexivity. }
  unfold main_result, main_trace. rewrite Hrun. cbn [fst snd trace printed flat_map].
  repeat split; [intros e' [] | discriminate].
Qed.

(** C6. The exit status is 1 on a usage error (fewer than two
    positional arguments, or an opset argument that [int] rejects, whose
    exception nobody catches) and on any exception that [convert_model]
    does not catch itself; in every other case it is 0. *)
Theorem exit_status :
  forall (argv : list string) (w : W),
    (usage_error argv = true \/
     bad_opset_argument ext argv \/
     conversion_raises ext argv w ->
     exit_code (main_result ext argv w) = 1) /\
    (~ (usage_error argv = true \/
        bad_opset_argument ext argv \/
        conversion_raises ext argv w) ->
     exit_code (main_result ext argv w) = 0).
Proof.
  intros argv w. rewrite main_result_cases.
  unfold bad_opset_argument, conversion_raises.
  destruct (usage_error argv) eqn:Husage.
  { split; [reflexivity | intros Hno; exfalso; apply Hno; left; reflexivity]. }
  destruct (parsed_target ext argv) as [t | e] eqn:Hparse.
  2:{ split; [reflexivity |].
      intros Hno; exfalso; apply Hno; right; left; exists e; reflexivity. }
  destruct (convert_result ext (nth 1%nat argv "") (nth 2%nat argv "") t w)
    as [[] | e | n] eqn:Hconv.
  - split; [| reflexivity].
    intros [Hu | [(e & He) | (t' & e & Ht & He)]]; try discriminate.
    injection Ht as <-. rewrite Hconv in He. discriminate.
  - split; [reflexivity |].
    intros Hno; exfalso; apply Hno; right; right; exists t, e; split;
      [reflexivity | assumption].
  - destruct (convert_model_never_exits ext _ _ t w n Hconv).
Qed.
End MainProperties.

(** ** Runs in the concrete world *)

(** A model at opset 17, target 14: every step of the script runs, and
    the process ends with status 0. *)
Example full_run_calls :
  calls (main_trace Demo.ext Demo.argv_two (Demo.fs_with (Demo.model 17 5))) =
    [ELoad "in.onnx" (Ok (Demo.model 17 5));
     EConvertVersion (Demo.model 17 5) 14 (Ok (Demo.model 14 5));
     ESimplify (Demo.model 14 5) 3 false false (Ok (Demo.model 14 4, true));
     ECheckModel (Demo.model 14 4) (Ok tt);
     ESave (Demo.model 14 4) "out.onnx" (Ok tt);
     EGetSize "in.onnx" (Ok 6291456);
     EGetSize "out.onnx" (Ok 5242880)] /\
  exit_code (main_result Demo.ext Demo.argv_two
               (Demo.fs_with (Demo.model 17 5))) = 0.
Proof. split; reflexivity. Qed.

(** No input file: the load raises, the handler of [__main__] prints the
    error line and exits with status 1. *)
Example missing_input_run :
  printed (main_trace Demo.ext Demo.argv_two []) =
    [Msg.loading "in.onnx";
     Msg.error (mkException "FileNotFoundError" "in.onnx")] /\
  main_result Demo.ext Demo.argv_two [] = Exit 1.
Proof. split; reflexivity. Qed.


(** A model at opset 17 with target 14: one conversion call, to 14, and
    the converted model goes to the simplifier. *)
Lemma conversion_once_with_target_witness :
  converted (convert_trace Demo.ext "in.onnx" "out.onnx" 14
               (Demo.fs_with (Demo.model 17 5))) = [(Demo.model 17 5, 14)] /\
  In (EConvertVersion (Demo.model 17 5) 14 (Ok (Demo.model 14 5)))
     (convert_trace Demo.ext "in.onnx" "out.onnx" 14
        (Demo.fs_with (Demo.model 17 5))).
Proof.
  destruct (conversion_once_with_target Demo.ext "in.onnx" "out.onnx" 14
              (Demo.fs_with (Demo.model 17 5)) (Demo.model 17 5) (mkOpset "" 17) []
              (Demo.fs_with (Demo.model 17 5)))
    as (Hconv & _ & Hin & _).
  - reflexivity.
  - reflexivity.
  - simpl. lia.
  - split; [exact Hconv | exact Hin].
Defined.

(** Graph 0 makes the simplifier raise: the converted, unsimplified
    model is validated and saved, and the run returns. *)
Lemma simplify_failure_is_tolerated_witness :
  checked (convert_trace Demo.ext "in.onnx" "out.onnx" 14
             (Demo.fs_with (Demo.model 17 0))) = [Demo.model 14 0] /\
  saved (convert_trace Demo.ext "in.onnx" "out.onnx" 14
           (Demo.fs_with (Demo.model 17 0))) = [(Demo.model 14 0, "out.onnx")] /\
  convert_result Demo.ext "in.onnx" "out.onnx" 14
    (Demo.fs_with (Demo.model 17 0)) = Return tt.
Proof.
  destruct (simplify_failure_is_tolerated Demo.ext "in.onnx" "out.onnx" 14
              (Demo.fs_with (Demo.model 17 0))
              (Demo.model 17 0) (mkOpset "" 17) [] (Demo.fs_with (Demo.model 17 0))
              (Demo.model 14 0) (Demo.fs_with (Demo.model 17 0))
              (mkException "RuntimeError" "empty graph")
              (Demo.fs_with (Demo.model 17 0))
              (Ok tt) (Demo.fs_with (Demo.model 17 0))
              (Ok tt) (("out.onnx", Demo.model 14 0) :: Demo.fs_with (Demo.model 17 0)))
    as (_ & _ & Hchecked & Hsaved & _ & _ & _ & Hret & _).
  - reflexivity.
  - reflexivity.
  - reflexivity.
  - reflexivity.
  - reflexivity.
  - reflexivity.
  - split; [exact Hchecked | split; [exact Hsaved |]].
    exact (proj1 (Hret _ _ _ _ eq_refl eq_refl eq_refl)).
Defined.

(** Graph 14 simplifies to graph 13, which the validator rejects: it is
    saved all the same, and the run returns. *)
Lemma validation_failure_is_advisory_witness :
  checked (convert_trace Demo.ext "in.onnx" "out.onnx" 14
             (Demo.fs_with (Demo.model 14 14))) = [Demo.model 14 13] /\
  saved (convert_trace Demo.ext "in.onnx" "out.onnx" 14
           (Demo.fs_with (Demo.model 14 14))) = [(Demo.model 14 13, "out.onnx")] /\
  convert_result Demo.ext "in.onnx" "out.onnx" 14
    (Demo.fs_with (Demo.model 14 14)) = Return tt.
Proof.
  destruct (validation_failure_is_advisory Demo.ext "in.onnx" "out.onnx" 14
              (Demo.fs_with (Demo.model 14 14))
              (Demo.model 14 14) (mkOpset "" 14) [] (Demo.fs_with (Demo.model 14 14))
              (Demo.model 14 14) (Demo.fs_with (Demo.model 14 14))
              (Demo.model 14 13) (Demo.fs_with (Demo.model 14 14))
              (mkException "ValidationError" "bad graph")
              (Demo.fs_with (Demo.model 14 14))
              (Ok tt) (("out.onnx", Demo.model 14 13) :: Demo.fs_with (Demo.model 14 14)))
    as (_ & Hchecked & Hsaved & _ & _ & Hret & _).
  - reflexivity.
  - reflexivity.
  - reflexivity.
  - reflexivity.
  - reflexivity.
  - reflexivity.
  - split; [exact Hchecked | split; [exact Hsaved |]].
    exact (proj1 (Hret _ _ _ _ eq_refl eq_refl eq_refl)).
Defined.


(** Saving to the empty path fails: the run raises, and nothing was saved before. *)
Lemma failed_run_wrote_nothing_before_save_witness :
  convert_result Demo.ext "in.onnx" "" 14 (Demo.fs_with (Demo.model 14 5)) =
    Raise (mkException "FileNotFoundError" "") /\
  saved (removelast (convert_trace Demo.ext "in.onnx" "" 14
                       (Demo.fs_with (Demo.model 14 5)))) = [].
Proof.
  destruct (failed_run_wrote_nothing_before_save Demo.ext "in.onnx" "" 14
              (Demo.fs_with (Demo.model 14 5))
              (mkException "FileNotFoundError" "")
              (ESave (Demo.model 14 4) "" (Err (mkException "FileNotFoundError" ""))))
    as (Hres & _ & Hbefore & _).
  - vm_compute. tauto.
  - right; right. exists (Demo.model 14 4), "". reflexivity.
  - split; [exact Hres | exact Hbefore].
Defined.

(** An empty [opset_import] raises [IndexError]; with two entries only the first, 17, is read. *)
Lemma conversion_decided_by_first_opset_witness :
  convert_result Demo.ext "in.onnx" "out.onnx" 14 (Demo.fs_with (mkModel [] 5%nat)) =
    Raise (mkException "IndexError" "list index out of range") /\
  converted (convert_trace Demo.ext "in.onnx" "out.onnx" 14
               (Demo.fs_with (mkModel [mkOpset "" 17; mkOpset "ai.onnx.ml" 3] 5%nat))) =
    [(mkModel [mkOpset "" 17; mkOpset "ai.onnx.ml" 3] 5%nat, 14)].
Proof.
  split.
  - destruct (conversion_decided_by_first_opset Demo.ext "in.onnx" "out.onnx" 14
                (Demo.fs_with (mkModel [] 5%nat)) (mkModel [] 5%nat))
      as (Hempty & _).
    + vm_compute. tauto.
    + destruct (Hempty eq_refl) as (Hres & _). exact Hres.
  - destruct (conversion_decided_by_first_opset Demo.ext "in.onnx" "out.onnx" 14
                (Demo.fs_with (mkModel [mkOpset "" 17; mkOpset "ai.onnx.ml" 3] 5%nat))
                (mkModel [mkOpset "" 17; mkOpset "ai.onnx.ml" 3] 5%nat))
      as (_ & Hfirst & _).
    + vm_compute. tauto.
    + exact (Hfirst (mkOpset "" 17) [mkOpset "ai.onnx.ml" 3] eq_refl).
Defined.

(** One positional argument: usage text and [sys.exit(1)]. *)
Lemma too_few_arguments_print_usage_witness :
  main_result Demo.ext Demo.argv_one [] = Exit 1 /\
  main_trace Demo.ext Demo.argv_one [] =
    [EPrint Msg.usage; EPrint Msg.example; EPrint Msg.example_line].
Proof.
  destruct (too_few_arguments_print_usage Demo.ext Demo.argv_one [])
    as (Hres & _ & Htrace & _).
  - simpl. lia.
  - split; [exact Hres | exact Htrace].
Defined.

(** [abc] as opset argument: the [ValueError] leaves [__main__], nothing is printed. *)
Lemma unparsable_opset_escapes_handler_witness :
  main_result Demo.ext Demo.argv_bad_opset (Demo.fs_with (Demo.model 17 5)) =
    Raise (mkException "ValueError" "invalid literal for int()") /\
  main_trace Demo.ext Demo.argv_bad_opset (Demo.fs_with (Demo.model 17 5)) = [].
Proof.
  destruct (unparsable_opset_escapes_handler Demo.ext Demo.argv_bad_opset
              (Demo.fs_with (Demo.model 17 5))
              (mkException "ValueError" "invalid literal for int()"))
    as (Hres & Htrace & _).
  - simpl. lia.
  - reflexivity.
  - split; [exact Hres | exact Htrace].
Defined.

(** ** Further properties of [convert_model] *)

Section Pipeline.
Context {G W : Type}.
Variable ext : Externals G W.
Variables i o : string.
Variable t : Z.
Variable w : W.


End Pipeline.

Section Steps.
Context {G W : Type}.
Variable ext : Externals G W.
Variables i o : string.
Variable t : Z.
Variable w : W.

(** X3. A failed version conversion is not recovered from: the script
    raises the exception of [convert_version], and nothing is simplified,
    validated or saved; the call was made on the loaded model with the
    target. *)
Theorem conversion_failure_is_fatal :
  forall (m : ModelProto G) (v : Z) (e : Exception),
    In (EConvertVersion m v (Err e)) (convert_trace ext i o t w) ->
    convert_result ext i o t w = Raise e /\
    v = t /\
    In (ELoad i (Ok m)) (convert_trace ext i o t w) /\
    simplified (convert_trace ext i o t w) = [] /\
    checked (convert_trace ext i o t w) = [] /\
    saved (convert_trace ext i o t w) = [].
Proof.
  intros m v e Hconv.
  explore_convert; split_in Hconv.
  injection Hconv as <- <- <-.
  repeat split. cbv [In]. tauto.
Qed.





End Steps.

(** ** Further properties of the [__main__] block *)

Section MainRuns.
Context {G W : Type}.
Variable ext : Externals G W.

(** Past the argument handling, a run of [__main__] is a run of
    [convert_model] followed by what the handler adds. *)
Lemma main_run_cases (argv : list string) (w : W) (t : Z) :
  usage_error argv = false ->
  parsed_target ext argv = Ok t ->
  main_trace ext argv w =
    (convert_trace ext (nth 1%nat argv "") (nth 2%nat argv "") t w ++
     handler_lines (convert_result ext (nth 1%nat argv "") (nth 2%nat argv "") t w))%list /\
  main_result ext argv w =
    match convert_result ext (nth 1%nat argv "") (nth 2%nat argv "") t w with
    | Return _ => Return tt
    | Raise _ => Exit 1
    | Exit n => Exit n
    end.
Proof.
  intros Husage Hparse.
  assert (Hrun :
            run (main ext argv) w =
              let '(r, st) :=
                run (convert_model ext (nth 1%nat argv "") (nth 2%nat argv "") t) w in
              match r with
              | Return a => (Return a, st)
              | Raise e =>
                  (Exit 1, mkState (world st) (trace st ++ [EPrint (Msg.error e)]))
              | Exit n => (Exit n, st)
              end).
  { unfold usage_error, parsed_target in *. unfold run, main.
    rewrite Husage. unfold Py.bind at 1.
    destruct (Z.of_nat (List.length argv) >? 3).
    - unfold Py.lift. rewrite Hparse. reflexivity.
    - injection Hparse as <-. reflexivity. }
  unfold main_trace, main_result, convert_trace, convert_result. rewrite Hrun.
  destruct (run (convert_model ext _ _ t) w) as [[[] | e | n] st];
    cbn [fst snd trace handler_lines]; rewrite ?app_nil_r; split; reflexivity.
Qed.


(** X9. With exactly two positional arguments the target is 14: the
    process does what [convert_model(argv[1], argv[2], 14)] does, then
    what the handler adds when that raised, and [int] plays no part. *)
Theorem two_arguments_default_opset :
  forall (argv : list string) (w : W),
    List.length (tl argv) = 2%nat ->
    main_trace ext argv w =
      (convert_trace ext (nth 0%nat (tl argv) "") (nth 1%nat (tl argv) "") 14 w ++
       handler_lines
         (convert_result ext (nth 0%nat (tl argv) "") (nth 1%nat (tl argv) "") 14 w))%list /\
    calls (main_trace ext argv w) =
      calls (convert_trace ext (nth 0%nat (tl argv) "") (nth 1%nat (tl argv) "") 14 w).
Proof.
  intros argv w Hlen.
  destruct argv as [| prog [| a1 [| a2 [| a3 rest]]]]; try discriminate Hlen.
  destruct (main_run_cases [prog; a1; a2] w 14 eq_refl eq_refl) as [-> _].
  cbn [tl nth]. split; [reflexivity |].
  unfold calls. rewrite filter_app.
  destruct (convert_result ext a1 a2 14 w); cbn [handler_lines filter is_call];
    rewrite ?app_nil_r; reflexivity.
Qed.

(** X10. With three or more positional arguments of which [int] accepts
    the third as [t], the process does what
    [convert_model(argv[1], argv[2], t)] does, then what the handler adds
    when that raised; the arguments after the third are never read: the
    run is that of the first three alone. *)
Theorem explicit_opset_argument :
  forall (argv : list string) (w : W) (t : Z),
    (3 <= List.length (tl argv))%nat ->
    py_int ext (nth 2%nat (tl argv) "") = Ok t ->
    main_trace ext argv w =
      (convert_trace ext (nth 0%nat (tl argv) "") (nth 1%nat (tl argv) "") t w ++
       handler_lines
         (convert_result ext (nth 0%nat (tl argv) "") (nth 1%nat (tl argv) "") t w))%list /\
    main_trace ext argv w = main_trace ext (firstn 4 argv) w /\
    main_result ext argv w = main_result ext (firstn 4 argv) w.
Proof.
  intros argv w t Hlen Hint.
  destruct argv as [| prog [| a1 [| a2 [| a3 rest]]]];
    try (cbn in Hlen; lia).
  cbn [tl nth firstn] in *.
  assert (Husage : forall l, usage_error (prog :: a1 :: a2 :: a3 :: l) = false).
  { intros l. unfold usage_error. apply Z.ltb_ge. cbn [List.length]. lia. }
  assert (Hparse : forall l,
             parsed_target ext (prog :: a1 :: a2 :: a3 :: l) = Ok t).
  { intros l. unfold parsed_target.
    replace (Z.of_nat (List.length (prog :: a1 :: a2 :: a3 :: l)) >? 3) with true
      by (symmetry; apply Z.gtb_lt; cbn [List.length]; lia).
    exact Hint. }
  destruct (main_run_cases _ w t (Husage rest) (Hparse rest)) as [Htr Hres].
  destruct (main_run_cases _ w t (Husage []) (Hparse [])) as [Htr' Hres'].
  cbn [nth] in *. rewrite Htr, Htr', Hres, Hres'.
  repeat split.
Qed.

(** X11. When [convert_model] raises, the handler of [__main__] runs
    after everything [convert_model] did: it prints one more line, the
    error line with the text of the exception, and the process exits with
    status 1. *)
Theorem conversion_error_is_reported :
  forall (argv : list string) (w : W) (t : Z) (e : Exception),
    usage_error argv = false ->
    parsed_target ext argv = Ok t ->
    convert_result ext (nth 1%nat argv "") (nth 2%nat argv "") t w = Raise e ->
    main_trace ext argv w =
      (convert_trace ext (nth 1%nat argv "") (nth 2%nat argv "") t w ++
       [EPrint (Msg.error e)])%list /\
    main_result ext argv w = Exit 1 /\
    exit_code (main_result ext argv w) = 1.
Proof.
  intros argv w t e Husage Hparse Hraise.
  destruct (main_run_cases argv w t Husage Hparse) as [-> ->].
  rewrite Hraise. repeat split.
Qed.

End MainRuns.

(** ** Further runs in the concrete world *)

(** A target below 7 makes the conversion raise: nothing is simplified,
    validated or saved. *)
Lemma conversion_failure_is_fatal_witness :
  convert_result Demo.ext "in.onnx" "out.onnx" 5 (Demo.fs_with (Demo.model 17 5)) =
    Raise (mkException "ConvertError" "unsupported target") /\
  simplified (convert_trace Demo.ext "in.onnx" "out.onnx" 5
                (Demo.fs_with (Demo.model 17 5))) = [] /\
  saved (convert_trace Demo.ext "in.onnx" "out.onnx" 5
           (Demo.fs_with (Demo.model 17 5))) = [].
Proof.
  destruct (conversion_failure_is_fatal Demo.ext "in.onnx" "out.onnx" 5
              (Demo.fs_with (Demo.model 17 5)) (Demo.model 17 5) 5
              (mkException "ConvertError" "unsupported target"))
    as (Hres & _ & _ & Hsim & _ & Hsaved).
  - vm_compute. tauto.
  - split; [exact Hres | split; [exact Hsim | exact Hsaved]].
Defined.






(** Two positional arguments: the calls are those of the conversion to
    opset 14. *)
Lemma two_arguments_default_opset_witness :
  calls (main_trace Demo.ext Demo.argv_two (Demo.fs_with (Demo.model 17 5))) =
  calls (convert_trace Demo.ext "in.onnx" "out.onnx" 14
           (Demo.fs_with (Demo.model 17 5))).
Proof.
  destruct (two_arguments_default_opset Demo.ext Demo.argv_two
              (Demo.fs_with (Demo.model 17 5)))
    as (_ & Hcalls).
  - reflexivity.
  - exact Hcalls.
Defined.

(** Target 11 on the command line, and a fifth argument that is ignored. *)
Lemma explicit_opset_argument_witness :
  main_trace Demo.ext ["MODEL_CONVERTER.py"; "in.onnx"; "out.onnx"; "11"; "extra"]
    (Demo.fs_with (Demo.model 17 5)) =
  main_trace Demo.ext ["MODEL_CONVERTER.py"; "in.onnx"; "out.onnx"; "11"]
    (Demo.fs_with (Demo.model 17 5)).
Proof.
  destruct (explicit_opset_argument Demo.ext
              ["MODEL_CONVERTER.py"; "in.onnx"; "out.onnx"; "11"; "extra"]
              (Demo.fs_with (Demo.model 17 5)) 11)
    as (_ & Hsame & _).
  - simpl. lia.
  - reflexivity.
  - exact Hsame.
Defined.

(** No input file: the error line comes last, and the status is 1. *)
Lemma conversion_error_is_reported_witness :
  main_trace Demo.ext Demo.argv_two [] =
    (convert_trace Demo.ext "in.onnx" "out.onnx" 14 [] ++
     [EPrint (Msg.error (mkException "FileNotFoundError" "in.onnx"))])%list /\
  main_result Demo.ext Demo.argv_two [] = Exit 1.
Proof.
  destruct (conversion_error_is_reported Demo.ext Demo.argv_two [] 14
              (mkException "FileNotFoundError" "in.onnx"))
    as (Htrace & Hres & _).
  - reflexivity.
  - reflexivity.
  - reflexivity.
  - split; [exact Htrace | exact Hres].
Defined.

